(** * Fitness tracker (homework.py): trainings, dispatcher and report.

    Shallow embedding of [homework.py].  Python's numbers are modelled as
    CPython has them: an [int] is an unbounded integer [Z], a [float] an
    IEEE 754 binary64 number ([spec_float] of the Standard Library, with
    53 bits of precision and exponent bound 1024), and the arithmetic
    operators follow CPython's rules for mixing them (an [int] operand
    of a float operation is converted first, which raises
    [OverflowError] when it is too large; [int / int] is rounded
    correctly from the exact quotient; [/] and [//] raise
    [ZeroDivisionError] on a zero divisor).  [x ** 2] on a float calls
    the C library's [pow], whose last bit is not specified by C: the
    program is parameterised by it. *)

From Stdlib Require Import QArith Qround ZArith List String Ascii Lia Lqa.
From Stdlib Require Import Floats.SpecFloat.
Import ListNotations.

Open Scope string_scope.

(** ** IEEE 754 binary64 *)

Definition float : Type := spec_float.

Definition prec : Z := 53.
Definition emax : Z := 1024.

Definition fmul : float -> float -> float := SFmul prec emax.
Definition fadd : float -> float -> float := SFadd prec emax.
Definition fsub : float -> float -> float := SFsub prec emax.
Definition fdiv : float -> float -> float := SFdiv prec emax.
Definition fltb : float -> float -> bool := SFltb.

(** The float nearest to [a / b] (ties to even), [b <> 0]; infinite when
    it is out of range.  [0 / b] is a zero with the sign of [b]. *)
Definition round_ratio (a b : Z) : float :=
  match a with
  | Z0 => S754_zero (Z.ltb b 0)
  | _ =>
      let '(mz, ez, lz) := SFdiv_core_binary prec emax (Z.abs a) 0 (Z.abs b) 0 in
      binary_round_aux prec emax (xorb (Z.ltb a 0) (Z.ltb b 0)) mz ez lz
  end.

(** The float nearest to an integer (infinite when out of range). *)
Definition of_Z (z : Z) : float := binary_normalize prec emax z 0 false.

(** A decimal literal [n / d] of the source, as the parser rounds it. *)
Definition flit (n d : Z) : float := round_ratio n d.

(** The exact value of a finite float (0 for the others). *)
Definition float_to_Q (f : float) : Q :=
  match f with
  | S754_finite s m e =>
      let v := Qmake (Zpos m * 2 ^ Z.max e 0) (Z.to_pos (2 ^ Z.max (- e) 0)) in
      if s then Qopp v else v
  | _ => 0
  end.

(** The float nearest to a rational. *)
Definition Q_to_float (q : Q) : float := round_ratio (Qnum q) (Zpos (Qden q)).

Definition is_finite (f : float) : bool :=
  match f with
  | S754_zero _ | S754_finite _ _ _ => true
  | _ => false
  end.

Definition sign_bit (f : float) : bool :=
  match f with
  | S754_zero s | S754_infinity s | S754_finite s _ _ => s
  | S754_nan => false
  end.

(** The truth value of a C [double]: false only for the zeros. *)
Definition is_nonzero (f : float) : bool :=
  match f with S754_zero _ => false | _ => true end.

Definition fone : float := of_Z 1.
Definition ftwo : float := of_Z 2.
Definition fhalf : float := binary_normalize prec emax 1 (-1) false.

(** Truncation towards zero of a rational. *)
Definition trunc_Q (q : Q) : Z :=
  if Qle_bool 0 q then Qfloor q else Z.opp (Qfloor (Qopp q)).

(** C's [fmod]: [x - n * y] with [n] the quotient truncated towards
    zero, computed exactly; the result has the sign of [x]. *)
Definition fmod (x y : float) : float :=
  match x, y with
  | S754_nan, _ | _, S754_nan | S754_infinity _, _ | _, S754_zero _ => S754_nan
  | S754_zero _, _ => x
  | S754_finite _ _ _, S754_infinity _ => x
  | S754_finite sx _ _, S754_finite _ _ _ =>
      let qx := float_to_Q x in
      let qy := float_to_Q y in
      let r := (qx - inject_Z (trunc_Q (qx / qy)) * qy)%Q in
      if Qeq_bool r 0 then S754_zero sx else Q_to_float r
  end.

(** C's [floor] (exact). *)
Definition floor (f : float) : float :=
  match f with
  | S754_finite _ _ _ =>
      let z := Qfloor (float_to_Q f) in
      if Z.eqb z 0 then S754_zero false else of_Z z
  | _ => f
  end.

(** The floor quotient of CPython's [_float_div_mod] (Objects/floatobject.c):
<<
    mod = fmod(vx, wx);
    div = (vx - mod) / wx;
    if (mod) {
        if ((wx < 0) != (mod < 0)) { mod += wx; div -= 1.0; }
    }
    ...
    if (div) {
        floordiv = floor(div);
        if (div - floordiv > 0.5) floordiv += 1.0;
    }
    else floordiv = copysign(0.0, vx / wx);
>> *)
Definition float_floor_div (vx wx : float) : float :=
  let md := fmod vx wx in
  let div := fdiv (fsub vx md) wx in
  let div :=
    if is_nonzero md then
      if Bool.eqb (fltb wx (S754_zero false)) (fltb md (S754_zero false))
      then div else fsub div fone
    else div in
  if is_nonzero div then
    let fl := floor div in
    if fltb fhalf (fsub div fl) then fadd fl fone else fl
  else S754_zero (sign_bit (fdiv vx wx)).

(** ** Python exceptions and the exception monad *)

Inductive exn :=
| ValueError (msg : string)
| TypeError
| ZeroDivisionError
| OverflowError
| NotImplementedError (msg : string).

Inductive res (A : Type) :=
| Ok (a : A)
| Err (e : exn).
Arguments Ok {A} a.
Arguments Err {A} e.

Definition bind {A B} (m : res A) (k : A -> res B) : res B :=
  match m with
  | Ok a => k a
  | Err e => Err e
  end.

Notation "'let*' x := m 'in' k" := (bind m (fun x => k))
  (at level 200, x name, m at level 100, k at level 200).

(** ** Python numbers *)

Inductive pynum :=
| PInt (z : Z)
| PFloat (f : float).

(** [float(x)] as the float operators apply it to their operands: an
    [int] too large for a float raises [OverflowError]. *)
Definition to_float (x : pynum) : res float :=
  match x with
  | PInt z =>
      match of_Z z with
      | S754_infinity _ => Err OverflowError
      | f => Ok f
      end
  | PFloat f => Ok f
  end.

(** A float operator applied to two numbers, at least one a float. *)
Definition float_op (op : float -> float -> float) (x y : pynum) : res pynum :=
  let* a := to_float x in
  let* b := to_float y in
  Ok (PFloat (op a b)).

(** [x + y], [x - y], [x * y]. *)
Definition py_add (x y : pynum) : res pynum :=
  match x, y with
  | PInt a, PInt b => Ok (PInt (a + b))
  | _, _ => float_op fadd x y
  end.

Definition py_sub (x y : pynum) : res pynum :=
  match x, y with
  | PInt a, PInt b => Ok (PInt (a - b))
  | _, _ => float_op fsub x y
  end.

Definition py_mul (x y : pynum) : res pynum :=
  match x, y with
  | PInt a, PInt b => Ok (PInt (a * b))
  | _, _ => float_op fmul x y
  end.

(** [x / y]: on two ints, the correctly rounded quotient
    ([long_true_divide]); otherwise float division. *)
Definition py_truediv (x y : pynum) : res pynum :=
  match x, y with
  | PInt a, PInt b =>
      if Z.eqb b 0 then Err ZeroDivisionError
      else match round_ratio a b with
           | S754_infinity _ => Err OverflowError
           | f => Ok (PFloat f)
           end
  | _, _ =>
      let* a := to_float x in
      let* b := to_float y in
      if is_nonzero b then Ok (PFloat (fdiv a b)) else Err ZeroDivisionError
  end.

(** [x // y]: [Z.div] (the floor) on two ints; [float_floor_div]
    otherwise. *)
Definition py_floordiv (x y : pynum) : res pynum :=
  match x, y with
  | PInt a, PInt b =>
      if Z.eqb b 0 then Err ZeroDivisionError else Ok (PInt (Z.div a b))
  | _, _ =>
      let* a := to_float x in
      let* b := to_float y in
      if is_nonzero b then Ok (PFloat (float_floor_div a b))
      else Err ZeroDivisionError
  end.

(** ** [InfoMessage] *)

Record InfoMessage := mkInfoMessage {
  training_type : string;
  duration : pynum;
  distance : pynum;
  speed : pynum;
  calories : pynum
}.

(** Decimal digits, as [format] prints them. *)
Definition digit (n : Z) : ascii := ascii_of_nat (48 + Z.to_nat n).

Fixpoint digits_aux (fuel : nat) (n : Z) (acc : string) : string :=
  match fuel with
  | O => acc
  | S f =>
      let acc' := String (digit (n mod 10)) acc in
      if (n <? 10)%Z then acc' else digits_aux f (n / 10) acc'
  end.

(** Decimal representation of a non-negative integer. *)
Definition digits (n : Z) : string :=
  digits_aux (S (Z.to_nat (Z.log2 n))) n "".

(** Rounding to the nearest integer, ties to even. *)
Definition round_half_even (q : Q) : Z :=
  let f := Qfloor q in
  match Qcompare (q - inject_Z f) (1 # 2) with
  | Lt => f
  | Gt => (f + 1)%Z
  | Eq => if Z.even f then f else (f + 1)%Z
  end.

(** A non-negative rational rounded to three decimals and printed. *)
Definition fixed_3 (q : Q) : string :=
  let n := round_half_even (q * 1000) in
  let frac := (n mod 1000)%Z in
  digits (n / 1000)%Z ++ "."
    ++ String (digit (frac / 100)%Z)
         (String (digit ((frac / 10) mod 10)%Z)
            (String (digit (frac mod 10)%Z) "")).

Definition sign_str (s : bool) : string := if s then "-" else "".

(** [format(f, '.3f')] on a float: the exact value rounded to three
    decimals (ties to even), with a [-] when the sign bit is set; the
    infinities and NaN print as [inf], [-inf] and [nan]. *)
Definition format_3f (f : float) : string :=
  match f with
  | S754_nan => "nan"
  | S754_infinity s => sign_str s ++ "inf"
  | S754_zero s => sign_str s ++ fixed_3 0
  | S754_finite s m e => sign_str s ++ fixed_3 (float_to_Q (S754_finite false m e))
  end.

(** A [{:.3f}] field: an [int] is converted to float first. *)
Definition format_field (x : pynum) : res string :=
  let* f := to_float x in
  Ok (format_3f f).

(** [InfoMessage.get_message]: [self.message.format(...)] with the
    dataclass's default [message] template; the fields are formatted
    left to right. *)
Definition get_message (m : InfoMessage) : res string :=
  let* s1 := format_field (duration m) in
  let* s2 := format_field (distance m) in
  let* s3 := format_field (speed m) in
  let* s4 := format_field (calories m) in
  Ok ("Тип тренировки: " ++ training_type m
      ++ "; Длительность: " ++ s1
      ++ " ч.; Дистанция: " ++ s2
      ++ " км; Ср. скорость: " ++ s3
      ++ " км/ч; Потрачено ккал: " ++ s4
      ++ ".").

(** ** The training classes *)

(** Attributes set by [Training.__init__]. *)
Record base := mkBase {
  action : pynum;
  duration_hour : pynum;
  weight : pynum
}.

(** An instance of [Training] or of one of its subclasses, with the
    attributes its [__init__] sets. *)
Inductive training :=
| Training (b : base)
| Running (b : base)
| SportsWalking (b : base) (height : pynum)
| Swimming (b : base) (length_pool : pynum) (count_pool : pynum).

Definition base_of (t : training) : base :=
  match t with
  | Training b | Running b | SportsWalking b _ | Swimming b _ _ => b
  end.

(** [self.__class__.__name__] *)
Definition class_name (t : training) : string :=
  match t with
  | Training _ => "Training"
  | Running _ => "Running"
  | SportsWalking _ _ => "SportsWalking"
  | Swimming _ _ _ => "Swimming"
  end.

(** Class attributes, with [Swimming]'s override of [LEN_STEP]. *)
Definition LEN_STEP (t : training) : pynum :=
  match t with
  | Swimming _ _ _ => PFloat (flit 138 100)
  | _ => PFloat (flit 65 100)
  end.
Definition M_IN_KM : pynum := PInt 1000.
Definition MIN_IN_HOUR : pynum := PInt 60.

Definition Running_COEFF_CALORIE_1 : pynum := PInt 18.
Definition Running_COEFF_CALORIE_2 : pynum := PInt 20.
Definition SportsWalking_COEFF_CALORIE_1 : pynum := PFloat (flit 35 1000).
Definition SportsWalking_COEFF_CALORIE_2 : pynum := PFloat (flit 29 1000).
Definition Swimming_COEFF_CALORIE_1 : pynum := PFloat (flit 11 10).
Definition Swimming_COEFF_CALORIE_2 : pynum := PInt 2.

(** [Training.get_distance] (not overridden). *)
Definition get_distance (t : training) : res pynum :=
  let* x := py_mul (action (base_of t)) (LEN_STEP t) in
  py_truediv x M_IN_KM.

(** [get_mean_speed]: [Training]'s, overridden by [Swimming]. *)
Definition get_mean_speed (t : training) : res pynum :=
  match t with
  | Swimming b length_pool count_pool =>
      let* x := py_mul length_pool count_pool in
      let* y := py_truediv x M_IN_KM in
      py_truediv y (duration_hour b)
  | _ =>
      let* d := get_distance t in
      py_truediv d (duration_hour (base_of t))
  end.

Section Program.

(** The C library's [pow], which CPython's [float.__pow__] calls. *)
Variable pow : float -> float -> float.

(** [x ** 2] ([float_pow] with [iw = 2.0]): NaN stays NaN, infinities and
    zeros give [+inf] and [+0.0], a negative base is made positive (the
    exponent is even), [1.0] gives [1.0], otherwise [pow(|x|, 2.0)], with
    [OverflowError] when it overflows. *)
Definition py_pow2 (x : pynum) : res pynum :=
  match x with
  | PInt z => Ok (PInt (z * z))
  | PFloat f =>
      match f with
      | S754_nan => Ok (PFloat S754_nan)
      | S754_infinity _ => Ok (PFloat (S754_infinity false))
      | S754_zero _ => Ok (PFloat (S754_zero false))
      | S754_finite _ m e =>
          let iv := S754_finite false m e in
          if SFeqb iv fone then Ok (PFloat fone)
          else match pow iv ftwo with
               | S754_infinity _ => Err OverflowError
               | r => Ok (PFloat r)
               end
      end
  end.

(** [get_spent_calories] of each class, its operators evaluated left to
    right ([self.get_mean_speed()] is called where it appears). *)
Definition get_spent_calories (t : training) : res pynum :=
  match t with
  | Training _ =>
      Err (NotImplementedError
             "Для тренировки не определен метод подсчета калорий.")
  | Running b =>
      (* (COEFF_CALORIE_1 * speed - COEFF_CALORIE_2) * weight
         / M_IN_KM * MIN_IN_HOUR * duration_hour *)
      let* s := get_mean_speed t in
      let* x := py_mul Running_COEFF_CALORIE_1 s in
      let* x := py_sub x Running_COEFF_CALORIE_2 in
      let* x := py_mul x (weight b) in
      let* x := py_truediv x M_IN_KM in
      let* x := py_mul x MIN_IN_HOUR in
      py_mul x (duration_hour b)
  | SportsWalking b height =>
      (* (COEFF_CALORIE_1 * weight
          + (speed ** 2 // height) * COEFF_CALORIE_2 * weight)
         * MIN_IN_HOUR * duration_hour *)
      let* x := py_mul SportsWalking_COEFF_CALORIE_1 (weight b) in
      let* s := get_mean_speed t in
      let* y := py_pow2 s in
      let* y := py_floordiv y height in
      let* y := py_mul y SportsWalking_COEFF_CALORIE_2 in
      let* y := py_mul y (weight b) in
      let* x := py_add x y in
      let* x := py_mul x MIN_IN_HOUR in
      py_mul x (duration_hour b)
  | Swimming b _ _ =>
      (* (speed + COEFF_CALORIE_1) * COEFF_CALORIE_2 * weight *)
      let* s := get_mean_speed t in
      let* x := py_add s Swimming_COEFF_CALORIE_1 in
      let* x := py_mul x Swimming_COEFF_CALORIE_2 in
      py_mul x (weight b)
  end.

(** [Training.show_training_info] *)
Definition show_training_info (t : training) : res InfoMessage :=
  let* dist := get_distance t in
  let* sp := get_mean_speed t in
  let* cal := get_spent_calories t in
  Ok (mkInfoMessage (class_name t) (duration_hour (base_of t)) dist sp cal).

(** [main]: the line it prints. *)
Definition main (t : training) : res string :=
  let* info := show_training_info t in
  get_message info.

End Program.

(** ** [read_package] *)

(** The call [cls( *data)]: a [TypeError] unless [data] has exactly the
    arity of the class's [__init__]. *)
Definition construct (workout_type : string) (data : list pynum) : res training :=
  match workout_type, data with
  | "SWM", [a; d; w; lp; cp] => Ok (Swimming (mkBase a d w) lp cp)
  | "RUN", [a; d; w] => Ok (Running (mkBase a d w))
  | "WLK", [a; d; w; h] => Ok (SportsWalking (mkBase a d w) h)
  | _, _ => Err TypeError
  end.

(** The keys of [workout_types]. *)
Definition workout_types : list string := ["SWM"; "RUN"; "WLK"].

(** The message of the [ValueError] raised by [read_package]. *)
Definition invalid_package_msg : string :=
  "Некорректный код тренировки или данные от датчиков устройств.".

Definition read_package (workout_type : string) (data : list pynum) : res training :=
  if in_dec string_dec workout_type workout_types
  then construct workout_type data
  else Err (ValueError invalid_package_msg).

(** ** The [__main__] driver *)

(** [packages] of the [__main__] block. *)
Definition packages : list (string * list pynum) :=
  [("SWM", [PInt 720; PInt 1; PInt 80; PInt 25; PInt 40]);
   ("RUN", [PInt 15000; PInt 1; PInt 75]);
   ("WLK", [PInt 9000; PInt 1; PInt 75; PInt 180])].

Section Driver.

Variable pow : float -> float -> float.

(** One iteration of the loop: [read_package] then [main]. *)
Definition run_package (p : string * list pynum) : res string :=
  let* t := read_package (fst p) (snd p) in
  main pow t.

(** The loop over the packages: the lines printed, and the exception
    that ends it, if any (nothing catches it, so the loop stops). *)
Fixpoint run_packages (ps : list (string * list pynum)) : list string * option exn :=
  match ps with
  | [] => ([], None)
  | p :: ps' =>
      match run_package p with
      | Ok line => let (out, e) := run_packages ps' in (line :: out, e)
      | Err e => ([], Some e)
      end
  end.

End Driver.

(** A [pow] that rounds [x ^ n] correctly for finite [x] and a
    non-negative integral [n], as glibc does for most arguments: the
    instance the concrete runs below use. *)
Definition pow_rounded (x y : float) : float :=
  match x, y with
  | S754_finite _ _ _, S754_finite false _ _ =>
      Q_to_float (float_to_Q x ^ Qfloor (float_to_Q y))
  | _, _ => S754_nan
  end.

(** ** The spec's terms, for comparison with the methods *)

(** [stepLength]: 0.65 for the stride trainings, 1.38 for [Swimming]. *)
Definition spec_step_length (t : training) : float :=
  match t with
  | Swimming _ _ _ => flit 138 100
  | _ => flit 65 100
  end.

(** A result that is a finite float equal (as a rational) to [q]. *)
Definition res_Qeq (r : res pynum) (q : Q) : Prop :=
  match r with
  | Ok (PFloat f) => is_finite f = true /\ (float_to_Q f == q)%Q
  | _ => False
  end.

(** A zero of Python: [0] or [0.0] or [-0.0]. *)
Definition is_zero_num (x : pynum) : bool :=
  match x with
  | PInt z => Z.eqb z 0
  | PFloat f => negb (is_nonzero f)
  end.

(** The two exceptions Python's arithmetic raises here. *)
Definition arith_exn (e : exn) : Prop :=
  e = ZeroDivisionError \/ e = OverflowError.

(** A decimal digit character. *)
Definition is_digit (c : ascii) : bool :=
  Nat.leb 48 (nat_of_ascii c) && Nat.leb (nat_of_ascii c) 57.

Fixpoint all_digits (s : string) : bool :=
  match s with
  | EmptyString => true
  | String c s' => is_digit c && all_digits s'
  end.

(** A fixed-point numeral with exactly three decimals. *)
Definition fixed3 (s : string) : Prop :=
  exists sign ip fp,
    s = sign ++ ip ++ "." ++ fp
    /\ (sign = "" \/ sign = "-")
    /\ ip <> "" /\ all_digits ip = true
    /\ String.length fp = 3%nat /\ all_digits fp = true.

(** The text [{:.3f}] prints for a float: a three-decimal numeral for a
    finite one, [inf], [-inf] or [nan] otherwise. *)
Definition printed3 (f : float) (s : string) : Prop :=
  (is_finite f = true /\ fixed3 s)
  \/ (f = S754_nan /\ s = "nan")
  \/ (exists sg, f = S754_infinity sg /\ s = sign_str sg ++ "inf").

(** Whether a string contains a decimal point. *)
Fixpoint has_point (s : string) : bool :=
  match s with
  | EmptyString => false
  | String c s' => if Ascii.eqb c "." then true else has_point s'
  end.

(** The integer a decimal numeral denotes, read left to right. *)
Fixpoint decimal_acc (s : string) (acc : Z) : Z :=
  match s with
  | EmptyString => acc
  | String c s' => decimal_acc s' (acc * 10 + (Z.of_nat (nat_of_ascii c) - 48))%Z
  end.

Definition decimal_value (s : string) : Z := decimal_acc s 0.

(** The number a printed [sign ++ ip ++ "." ++ fp] denotes. *)
Definition printed_value (sign ip fp : string) : Q :=
  let v := (inject_Z (decimal_value ip * 1000 + decimal_value fp) / 1000)%Q in
  if string_dec sign "-" then (- v)%Q else v.

(** ** Auxiliary lemmas *)

Lemma to_float_M_IN_KM : to_float M_IN_KM = Ok (of_Z 1000).
Proof. reflexivity. Qed.

Lemma to_float_MIN_IN_HOUR : to_float MIN_IN_HOUR = Ok (of_Z 60).
Proof. reflexivity. Qed.

Lemma to_float_float (f : float) : to_float (PFloat f) = Ok f.
Proof. reflexivity. Qed.

Lemma to_float_err (x : pynum) (e : exn) :
  to_float x = Err e -> e = OverflowError /\ exists z, x = PInt z.
Proof.
  destruct x as [z|f]; cbn [to_float]; [|discriminate].
  destruct (of_Z z); intros H; try discriminate H.
  injection H as <-. eauto.
Qed.

Lemma py_mul_float_l (f : float) (y : pynum) :
  py_mul (PFloat f) y = let* b := to_float y in Ok (PFloat (fmul f b)).
Proof. destruct y; reflexivity. Qed.

Lemma py_mul_float_r (x : pynum) (f : float) :
  py_mul x (PFloat f) = let* a := to_float x in Ok (PFloat (fmul a f)).
Proof.
  destruct x as [z|g]; [|reflexivity].
  unfold py_mul, float_op. destruct (to_float (PInt z)); reflexivity.
Qed.

Lemma py_add_float_l (f : float) (y : pynum) :
  py_add (PFloat f) y = let* b := to_float y in Ok (PFloat (fadd f b)).
Proof. destruct y; reflexivity. Qed.

Lemma py_sub_float_l (f : float) (y : pynum) :
  py_sub (PFloat f) y = let* b := to_float y in Ok (PFloat (fsub f b)).
Proof. destruct y; reflexivity. Qed.

Lemma py_truediv_float_l (f : float) (y : pynum) :
  py_truediv (PFloat f) y
  = let* b := to_float y in
    if is_nonzero b then Ok (PFloat (fdiv f b)) else Err ZeroDivisionError.
Proof. destruct y; reflexivity. Qed.

Lemma py_floordiv_float_l (f : float) (y : pynum) :
  py_floordiv (PFloat f) y
  = let* b := to_float y in
    if is_nonzero b then Ok (PFloat (float_floor_div f b))
    else Err ZeroDivisionError.
Proof. destruct y; reflexivity. Qed.

(** A zero divisor, once converted, is a float zero. *)
Lemma to_float_zero (x : pynum) :
  is_zero_num x = true -> exists f, to_float x = Ok f /\ is_nonzero f = false.
Proof.
  destruct x as [z|f]; cbn [is_zero_num].
  - intros H. apply Z.eqb_eq in H. subst z. eexists. split; reflexivity.
  - intros H. exists f. split; [reflexivity|]. destruct (is_nonzero f); easy.
Qed.

Lemma py_truediv_zero (f : float) (y : pynum) :
  is_zero_num y = true -> py_truediv (PFloat f) y = Err ZeroDivisionError.
Proof.
  intros Hy. destruct (to_float_zero y Hy) as [g [Hg Hz]].
  rewrite py_truediv_float_l, Hg. cbn [bind]. rewrite Hz. reflexivity.
Qed.

Lemma py_floordiv_zero (f : float) (y : pynum) :
  is_zero_num y = true -> py_floordiv (PFloat f) y = Err ZeroDivisionError.
Proof.
  intros Hy. destruct (to_float_zero y Hy) as [g [Hg Hz]].
  rewrite py_floordiv_float_l, Hg. cbn [bind]. rewrite Hz. reflexivity.
Qed.

(** Results that are floats. *)
Definition is_float (x : pynum) : Prop := exists f, x = PFloat f.

Lemma py_truediv_float (x y v : pynum) : py_truediv x y = Ok v -> is_float v.
Proof.
  unfold is_float. intros H.
  destruct x as [a|a], y as [b|b]; cbv beta iota delta [py_truediv] in H;
    repeat match type of H with
    | bind ?m _ = Ok _ => destruct m; cbn [bind] in H; [|discriminate H]
    | (if ?c then _ else _) = Ok _ => destruct c
    | match ?c with _ => _ end = Ok _ => destruct c
    end; try discriminate H; injection H as <-; eauto.
Qed.

Lemma py_mul_float_l_float (f : float) (y v : pynum) :
  py_mul (PFloat f) y = Ok v -> is_float v.
Proof.
  rewrite py_mul_float_l. destruct (to_float y); cbn [bind]; [|discriminate].
  intros H. injection H as <-. eexists. reflexivity.
Qed.

Lemma py_add_float_l_float (f : float) (y v : pynum) :
  py_add (PFloat f) y = Ok v -> is_float v.
Proof.
  rewrite py_add_float_l. destruct (to_float y); cbn [bind]; [|discriminate].
  intros H. injection H as <-. eexists. reflexivity.
Qed.

Lemma get_distance_float (t : training) (v : pynum) :
  get_distance t = Ok v -> is_float v.
Proof.
  unfold get_distance. destruct (py_mul _ _); cbn [bind]; [|discriminate].
  apply py_truediv_float.
Qed.

Lemma get_mean_speed_float (t : training) (v : pynum) :
  get_mean_speed t = Ok v -> is_float v.
Proof.
  destruct t; cbn [get_mean_speed];
    repeat match goal with
    | |- bind ?m _ = Ok _ -> _ => destruct m; cbn [bind]; [|discriminate]
    end; apply py_truediv_float.
Qed.

(** A division of a float that succeeds has converted its divisor. *)
Lemma py_truediv_float_l_ok (f : float) (y v : pynum) :
  py_truediv (PFloat f) y = Ok v -> exists g, to_float y = Ok g.
Proof.
  rewrite py_truediv_float_l. destruct (to_float y); cbn [bind]; [eauto|discriminate].
Qed.

Lemma get_mean_speed_duration (t : training) (v : pynum) :
  get_mean_speed t = Ok v -> exists g, to_float (duration_hour (base_of t)) = Ok g.
Proof.
  destruct t; cbn [get_mean_speed base_of];
    repeat match goal with
    | |- bind ?m _ = Ok _ -> _ =>
        let E := fresh "E" in destruct m eqn:E; cbn [bind]; [|discriminate]
    end;
    match goal with
    | E : _ = Ok ?x |- py_truediv ?x _ = Ok _ -> _ =>
        first [ apply get_distance_float in E | apply py_truediv_float in E ];
        destruct E as [g ->]; apply py_truediv_float_l_ok
    end.
Qed.

(** ** Exceptions of the arithmetic *)

Definition arith_res {A} (r : res A) : Prop := forall e, r = Err e -> arith_exn e.

Lemma arith_ok {A} (a : A) : arith_res (Ok a).
Proof. intros e H. discriminate H. Qed.

Lemma arith_bind {A B} (m : res A) (k : A -> res B) :
  arith_res m -> (forall a, arith_res (k a)) -> arith_res (bind m k).
Proof. intros Hm Hk e. destruct m as [a|e']; cbn [bind]; [exact (Hk a e) | intros H; injection H as <-; exact (Hm e' eq_refl)]. Qed.

Lemma arith_to_float (x : pynum) : arith_res (to_float x).
Proof. intros e H. apply to_float_err in H. right. apply H. Qed.

Lemma arith_float_op op (x y : pynum) : arith_res (float_op op x y).
Proof.
  unfold float_op. apply arith_bind; [apply arith_to_float|intros a].
  apply arith_bind; [apply arith_to_float|intros b]. apply arith_ok.
Qed.

Lemma arith_py_add (x y : pynum) : arith_res (py_add x y).
Proof. destruct x, y; first [apply arith_ok | apply arith_float_op]. Qed.

Lemma arith_py_sub (x y : pynum) : arith_res (py_sub x y).
Proof. destruct x, y; first [apply arith_ok | apply arith_float_op]. Qed.

Lemma arith_py_mul (x y : pynum) : arith_res (py_mul x y).
Proof. destruct x, y; first [apply arith_ok | apply arith_float_op]. Qed.

Lemma arith_if {A} (c : bool) (r1 r2 : res A) :
  arith_res r1 -> arith_res r2 -> arith_res (if c then r1 else r2).
Proof. destruct c; auto. Qed.

Lemma arith_zde {A} : arith_res (@Err A ZeroDivisionError).
Proof. intros e H. injection H as <-. left. reflexivity. Qed.

Lemma arith_ovf {A} : arith_res (@Err A OverflowError).
Proof. intros e H. injection H as <-. right. reflexivity. Qed.

Lemma arith_py_truediv (x y : pynum) : arith_res (py_truediv x y).
Proof.
  unfold py_truediv.
  destruct x, y;
    repeat first [ apply arith_ok | apply arith_zde | apply arith_ovf
                 | apply arith_to_float
                 | apply arith_if
                 | apply arith_bind; [|intros ?]
                 | match goal with |- arith_res (match ?c with _ => _ end) =>
                     destruct c end ].
Qed.

Lemma arith_py_floordiv (x y : pynum) : arith_res (py_floordiv x y).
Proof.
  unfold py_floordiv.
  destruct x, y;
    repeat first [ apply arith_ok | apply arith_zde
                 | apply arith_to_float
                 | apply arith_if
                 | apply arith_bind; [|intros ?] ].
Qed.

Lemma arith_py_pow2 pow (x : pynum) : arith_res (py_pow2 pow x).
Proof.
  unfold py_pow2.
  repeat first [ apply arith_ok | apply arith_ovf | apply arith_if
               | match goal with |- arith_res (match ?c with _ => _ end) =>
                   destruct c end ].
Qed.

Lemma arith_format_field (x : pynum) : arith_res (format_field x).
Proof.
  unfold format_field. apply arith_bind; [apply arith_to_float|intros ?].
  apply arith_ok.
Qed.

Lemma arith_get_message (m : InfoMessage) : arith_res (get_message m).
Proof.
  unfold get_message.
  repeat (apply arith_bind; [apply arith_format_field|intros ?]). apply arith_ok.
Qed.

#[local] Hint Resolve arith_ok arith_to_float arith_py_add arith_py_sub arith_py_mul
  arith_py_truediv arith_py_floordiv arith_py_pow2 arith_get_message : arith.

Ltac arith_chain :=
  repeat first [ apply arith_bind; [solve [auto with arith] | intros ?]
               | solve [auto with arith] ].

Lemma arith_get_distance (t : training) : arith_res (get_distance t).
Proof. unfold get_distance. arith_chain. Qed.

#[local] Hint Resolve arith_get_distance : arith.

Lemma arith_get_mean_speed (t : training) : arith_res (get_mean_speed t).
Proof. destruct t; cbn [get_mean_speed]; arith_chain. Qed.

#[local] Hint Resolve arith_get_mean_speed : arith.

Lemma arith_get_spent_calories pow (t : training) :
  (forall b, t <> Training b) -> arith_res (get_spent_calories pow t).
Proof.
  intros Ht. destruct t as [b|b|b h|b lp cp];
    [exfalso; exact (Ht b eq_refl) | ..]; cbn [get_spent_calories]; arith_chain.
Qed.

(** ** Results that are floats *)

Lemma py_mul_float_any (x y v : pynum) :
  py_mul x y = Ok v -> is_float x \/ is_float y -> is_float v.
Proof.
  intros H [[f ->]|[f ->]];
    [apply py_mul_float_l_float in H | rewrite py_mul_float_r in H;
     destruct (to_float x); cbn [bind] in H; [|discriminate H];
     injection H as <-; eexists]; eauto.
Qed.

Lemma py_sub_float_l_float (f : float) (y v : pynum) :
  py_sub (PFloat f) y = Ok v -> is_float v.
Proof.
  rewrite py_sub_float_l. destruct (to_float y); cbn [bind]; [|discriminate].
  intros H. injection H as <-. eexists. reflexivity.
Qed.

Lemma py_floordiv_float_l_float (f : float) (y v : pynum) :
  py_floordiv (PFloat f) y = Ok v -> is_float v.
Proof.
  rewrite py_floordiv_float_l. destruct (to_float y); cbn [bind]; [|discriminate].
  destruct (is_nonzero _); [|discriminate]. intros H. injection H as <-.
  eexists. reflexivity.
Qed.

Lemma py_pow2_float pow (f : float) (v : pynum) :
  py_pow2 pow (PFloat f) = Ok v -> is_float v.
Proof.
  unfold py_pow2. intros H.
  repeat match type of H with
  | (if ?c then _ else _) = Ok _ => destruct c
  | match ?c with _ => _ end = Ok _ => destruct c
  end; try discriminate H; injection H as <-; eexists; reflexivity.
Qed.

Ltac float_step E :=
  lazymatch type of E with
  | get_mean_speed _ = Ok _ => destruct (get_mean_speed_float _ _ E) as [? ->]
  | get_distance _ = Ok _ => destruct (get_distance_float _ _ E) as [? ->]
  | py_truediv _ _ = Ok _ => destruct (py_truediv_float _ _ _ E) as [? ->]
  | py_mul (PFloat _) _ = Ok _ =>
      destruct (py_mul_float_any _ _ _ E (or_introl (ex_intro _ _ eq_refl))) as [? ->]
  | py_mul _ (PFloat _) = Ok _ =>
      destruct (py_mul_float_any _ _ _ E (or_intror (ex_intro _ _ eq_refl))) as [? ->]
  | py_add (PFloat _) _ = Ok _ => destruct (py_add_float_l_float _ _ _ E) as [? ->]
  | py_sub (PFloat _) _ = Ok _ => destruct (py_sub_float_l_float _ _ _ E) as [? ->]
  | py_floordiv (PFloat _) _ = Ok _ =>
      destruct (py_floordiv_float_l_float _ _ _ E) as [? ->]
  | py_pow2 _ (PFloat _) = Ok _ => destruct (py_pow2_float _ _ _ E) as [? ->]
  end.

Lemma get_spent_calories_float pow (t : training) (v : pynum) :
  get_spent_calories pow t = Ok v -> is_float v.
Proof.
  intros H. destruct t; cbn [get_spent_calories] in H; [discriminate H | ..];
    unfold Running_COEFF_CALORIE_1, SportsWalking_COEFF_CALORIE_1,
      SportsWalking_COEFF_CALORIE_2, Swimming_COEFF_CALORIE_1 in H;
    repeat match type of H with
    | bind ?m _ = Ok _ =>
        let E := fresh "E" in
        destruct m eqn:E; cbn [bind] in H; [float_step E | discriminate H]
    end;
    (eapply py_mul_float_any; [exact H | left; eexists; reflexivity]).
Qed.

(** What a successful [show_training_info] returns. *)
Lemma show_training_info_fields pow (t : training) (info : InfoMessage) :
  show_training_info pow t = Ok info ->
  training_type info = class_name t
  /\ duration info = duration_hour (base_of t)
  /\ (exists f1, to_float (duration_hour (base_of t)) = Ok f1)
  /\ is_float (distance info) /\ is_float (speed info) /\ is_float (calories info)
  /\ (forall b, t <> Training b).
Proof.
  unfold show_training_info. intros H.
  destruct (get_distance t) as [dist|] eqn:Ed; cbn [bind] in H; [|discriminate H].
  destruct (get_mean_speed t) as [sp|] eqn:Es; cbn [bind] in H; [|discriminate H].
  destruct (get_spent_calories pow t) as [cal|] eqn:Ec; cbn [bind] in H;
    [|discriminate H].
  injection H as <-. cbn [training_type duration distance speed calories].
  split; [reflexivity|]. split; [reflexivity|].
  split; [exact (get_mean_speed_duration _ _ Es)|].
  split; [exact (get_distance_float _ _ Ed)|].
  split; [exact (get_mean_speed_float _ _ Es)|].
  split; [exact (get_spent_calories_float _ _ _ Ec)|].
  intros b ->. discriminate Ec.
Qed.

(** ** Decimal printing *)

Lemma digit_is_digit (n : Z) : (0 <= n < 10)%Z -> is_digit (digit n) = true.
Proof.
  intros Hn. unfold is_digit, digit.
  rewrite nat_ascii_embedding by lia.
  apply andb_true_intro; split; apply Nat.leb_le; lia.
Qed.

Lemma digits_aux_all (f : nat) : forall n acc,
  all_digits acc = true -> all_digits (digits_aux f n acc) = true.
Proof.
  induction f as [|f IH]; intros n acc Hacc; cbn [digits_aux]; [exact Hacc|].
  assert (Hc : all_digits (String (digit (n mod 10)) acc) = true).
  { cbn [all_digits]. rewrite digit_is_digit by (apply Z.mod_pos_bound; lia).
    exact Hacc. }
  destruct (n <? 10)%Z; [exact Hc | apply IH, Hc].
Qed.

Lemma digits_aux_nonempty (f : nat) : forall n acc,
  acc <> "" -> digits_aux f n acc <> "".
Proof.
  induction f as [|f IH]; intros n acc Hacc; cbn [digits_aux]; [exact Hacc|].
  destruct (n <? 10)%Z; [discriminate | apply IH; discriminate].
Qed.

Lemma digits_fixed (n : Z) : digits n <> "" /\ all_digits (digits n) = true.
Proof.
  split.
  - unfold digits. cbn [digits_aux].
    destruct (n <? 10)%Z; [discriminate | apply digits_aux_nonempty; discriminate].
  - apply digits_aux_all. reflexivity.
Qed.

Lemma string_append_assoc (s1 s2 s3 : string) :
  (s1 ++ s2) ++ s3 = s1 ++ s2 ++ s3.
Proof.
  induction s1 as [|c s1 IH]; simpl; [reflexivity | now rewrite IH].
Qed.

Lemma decimal_acc_shift (s : string) : forall acc,
  decimal_acc s acc = (acc * 10 ^ Z.of_nat (String.length s) + decimal_acc s 0)%Z.
Proof.
  induction s as [|c s IH]; intros acc; cbn [decimal_acc String.length].
  - lia.
  - rewrite (IH (acc * 10 + _)%Z), (IH (0 * 10 + _)%Z).
    rewrite Nat2Z.inj_succ, Z.pow_succ_r by lia. ring.
Qed.

Lemma digit_value (k : Z) :
  (0 <= k < 10)%Z -> (Z.of_nat (nat_of_ascii (digit k)) - 48)%Z = k.
Proof.
  intros Hk. unfold digit. rewrite nat_ascii_embedding by lia. lia.
Qed.

Lemma digits_aux_value (f : nat) : forall n acc,
  (0 <= n)%Z -> (n < 2 ^ Z.of_nat f)%Z ->
  decimal_value (digits_aux f n acc)
  = (n * 10 ^ Z.of_nat (String.length acc) + decimal_value acc)%Z.
Proof.
  induction f as [|f IH]; intros n acc H0 H1; cbn [digits_aux].
  - cbn in H1. assert (n = 0%Z) by lia. subst. reflexivity.
  - assert (Hm : (0 <= n mod 10 < 10)%Z) by (apply Z.mod_pos_bound; lia).
    assert (Hacc : decimal_value (String (digit (n mod 10)) acc)
                   = (n mod 10 * 10 ^ Z.of_nat (String.length acc)
                      + decimal_value acc)%Z).
    { unfold decimal_value. cbn [decimal_acc].
      rewrite digit_value by exact Hm. rewrite decimal_acc_shift. ring. }
    destruct (n <? 10)%Z eqn:E.
    + apply Z.ltb_lt in E. rewrite Hacc, Z.mod_small by lia. reflexivity.
    + apply Z.ltb_ge in E.
      rewrite IH; [| apply Z.div_pos; lia |].
      * rewrite Hacc. cbn [String.length].
        rewrite Nat2Z.inj_succ, Z.pow_succ_r by lia.
        rewrite (Z.div_mod n 10) at 3 by lia. ring.
      * apply Z.div_lt_upper_bound; [lia|].
        rewrite Nat2Z.inj_succ, Z.pow_succ_r in H1 by lia.
        assert (0 <= 2 ^ Z.of_nat f)%Z by (apply Z.pow_nonneg; lia). lia.
Qed.

Lemma digits_value (n : Z) : (0 <= n)%Z -> decimal_value (digits n) = n.
Proof.
  intros Hn. unfold digits.
  rewrite digits_aux_value; [cbn; ring | exact Hn |].
  rewrite Nat2Z.inj_succ, Z2Nat.id by (apply Z.log2_nonneg).
  destruct (Z.eq_dec n 0) as [->|Hnz]; [reflexivity|].
  apply Z.log2_spec. lia.
Qed.

Lemma round_half_even_bound (x : Q) :
  (- (1 # 2) <= x - inject_Z (round_half_even x) <= 1 # 2)%Q.
Proof.
  unfold round_half_even.
  pose proof (Qfloor_le x) as Hl. pose proof (Qlt_floor x) as Hu.
  rewrite inject_Z_plus in Hu. change (inject_Z 1) with 1%Q in Hu.
  destruct (Qcompare_spec (x - inject_Z (Qfloor x)) (1 # 2)) as [E|E|E].
  - destruct (Z.even (Qfloor x)); [|rewrite inject_Z_plus;
      change (inject_Z 1) with 1%Q]; split; lra.
  - split; lra.
  - rewrite inject_Z_plus. change (inject_Z 1) with 1%Q. split; lra.
Qed.

(** [fixed_3] of a non-negative rational: digits, a point, three digits,
    denoting a number within [0.0005] of it. *)
Lemma fixed_3_value (q : Q) :
  (0 <= q)%Q ->
  exists ip fp,
    fixed_3 q = ip ++ "." ++ fp
    /\ ip <> "" /\ all_digits ip = true
    /\ String.length fp = 3%nat /\ all_digits fp = true
    /\ (- (1 # 2000) <= q - inject_Z (decimal_value ip * 1000 + decimal_value fp) / 1000
        <= 1 # 2000)%Q.
Proof.
  intros Hq.
  set (n := round_half_even (q * 1000)).
  set (frac := (n mod 1000)%Z).
  assert (Hf : (0 <= frac < 1000)%Z) by (apply Z.mod_pos_bound; lia).
  assert (Hb := round_half_even_bound (q * 1000)). fold n in Hb.
  assert (Hn0 : (0 <= n)%Z).
  { assert (inject_Z (-1) < inject_Z n)%Q
      by (change (inject_Z (-1)) with (-1)%Q; lra).
    rewrite <- Zlt_Qlt in H. lia. }
  set (fp := String (digit (frac / 100)%Z)
               (String (digit ((frac / 10) mod 10)%Z)
                  (String (digit (frac mod 10)%Z) ""))).
  assert (Hfp : decimal_value fp = frac).
  { unfold fp, decimal_value. cbn [decimal_acc].
    rewrite !digit_value.
    - replace (frac / 100)%Z with (frac / 10 / 10)%Z
        by (rewrite Z.div_div by lia; reflexivity).
      pose proof (Z.div_mod frac 10 ltac:(lia)) as E1.
      pose proof (Z.div_mod (frac / 10) 10 ltac:(lia)) as E2.
      generalize dependent (frac / 10 / 10)%Z.
      generalize dependent ((frac / 10) mod 10)%Z.
      generalize dependent (frac mod 10)%Z.
      generalize dependent (frac / 10)%Z.
      intros. lia.
    - apply Z.mod_pos_bound; lia.
    - apply Z.mod_pos_bound; lia.
    - split; [apply Z.div_pos; lia | apply Z.div_lt_upper_bound; lia]. }
  assert (Hn : (decimal_value (digits (n / 1000)) * 1000 + decimal_value fp = n)%Z).
  { rewrite Hfp, digits_value by (apply Z.div_pos; lia).
    unfold frac. rewrite (Z.div_mod n 1000) at 3 by lia. ring. }
  destruct (digits_fixed (n / 1000)) as [Hne Hall].
  exists (digits (n / 1000)), fp.
  split; [reflexivity|]. split; [exact Hne|]. split; [exact Hall|].
  split; [reflexivity|].
  split.
  - unfold fp. cbn [all_digits].
    rewrite (digit_is_digit (frac / 100)%Z)
      by (split; [apply Z.div_pos; lia | apply Z.div_lt_upper_bound; lia]).
    rewrite (digit_is_digit ((frac / 10) mod 10)%Z) by (apply Z.mod_pos_bound; lia).
    rewrite (digit_is_digit (frac mod 10)%Z) by (apply Z.mod_pos_bound; lia).
    reflexivity.
  - rewrite Hn. unfold Qdiv. change (/ 1000)%Q with (1 # 1000)%Q.
    split; lra.
Qed.

Lemma float_to_Q_nonneg (m : positive) (e : Z) :
  (0 <= float_to_Q (S754_finite false m e))%Q.
Proof.
  unfold float_to_Q, Qle. cbn [Qnum Qden].
  assert (0 <= 2 ^ Z.max e 0)%Z by (apply Z.pow_nonneg; lia). nia.
Qed.

Lemma format_3f_printed3 (f : float) : printed3 f (format_3f f).
Proof.
  unfold printed3.
  destruct f as [s|s| |s m e].
  - left. split; [reflexivity|].
    destruct (fixed_3_value 0 (Qle_refl 0))
      as [ip [fp [E [Hne [Hip [Hl [Hfp _]]]]]]].
    exists (sign_str s), ip, fp. cbn [format_3f]. rewrite E.
    split; [reflexivity|]. split; [destruct s; auto|]. auto.
  - right. right. exists s. split; reflexivity.
  - right. left. split; reflexivity.
  - left. split; [reflexivity|].
    destruct (fixed_3_value _ (float_to_Q_nonneg m e))
      as [ip [fp [E [Hne [Hip [Hl [Hfp _]]]]]]].
    exists (sign_str s), ip, fp. cbn [format_3f]. rewrite E.
    split; [reflexivity|]. split; [destruct s; auto|]. auto.
Qed.

Lemma has_point_app (a b : string) : has_point (a ++ b) = has_point a || has_point b.
Proof.
  induction a as [|c a IH]; cbn; [reflexivity|].
  destruct (Ascii.eqb c "."); [reflexivity | exact IH].
Qed.

Lemma fixed3_has_point (s : string) : fixed3 s -> has_point s = true.
Proof.
  intros [sign [ip [fp [-> _]]]].
  rewrite !has_point_app. cbn. rewrite !Bool.orb_true_r. reflexivity.
Qed.

Lemma float_to_Q_finite_sign (s : bool) (m : positive) (e : Z) :
  float_to_Q (S754_finite s m e)
  = if s then Qopp (float_to_Q (S754_finite false m e))
    else float_to_Q (S754_finite false m e).
Proof. destruct s; reflexivity. Qed.

(** ** Evaluating the arithmetic symbolically *)

Lemma to_float_lit (z : Z) :
  match of_Z z with S754_infinity _ => false | _ => true end = true ->
  to_float (PInt z) = Ok (of_Z z).
Proof. cbn [to_float]. destruct (of_Z z); easy. Qed.

Lemma py_truediv_M_IN_KM (f : float) :
  py_truediv (PFloat f) M_IN_KM = Ok (PFloat (fdiv f (of_Z 1000))).
Proof. reflexivity. Qed.

Ltac py_simpl :=
  repeat first
    [ progress cbn [bind]
    | rewrite py_truediv_M_IN_KM
    | rewrite py_mul_float_l | rewrite py_mul_float_r | rewrite py_add_float_l
    | rewrite py_sub_float_l | rewrite py_truediv_float_l
    | rewrite py_floordiv_float_l
    | rewrite to_float_float | rewrite to_float_MIN_IN_HOUR
    | rewrite to_float_M_IN_KM
    | rewrite to_float_lit by reflexivity
    | match goal with
      | H : ?a = Ok _ |- context [?a] => rewrite H
      | H : ?a = true |- context [?a] => rewrite H
      end ].

(** [x ** 2] on a positive finite float other than [1.0] calls [pow]. *)
Lemma py_pow2_of_finite pow (s : float) :
  match s with S754_finite false _ _ => negb (SFeqb s fone) | _ => false end = true ->
  py_pow2 pow (PFloat s)
  = match pow s ftwo with S754_infinity _ => Err OverflowError | r => Ok (PFloat r) end.
Proof.
  destruct s as [s|s| |[|] m e]; try discriminate.
  intros H. cbn [py_pow2]. destruct (SFeqb _ fone); [discriminate H | reflexivity].
Qed.

(** ** [read_package] builds one of the three subclasses *)

Lemma construct_ok (w : string) (data : list pynum) (t : training) :
  construct w data = Ok t ->
  (exists b, t = Running b) \/ (exists b h, t = SportsWalking b h)
  \/ (exists b lp cp, t = Swimming b lp cp).
Proof.
  unfold construct. intros H.
  repeat (match type of H with context [match ?x with _ => _ end] =>
            destruct x end; try discriminate H);
    injection H as <-; eauto 6.
Qed.

Lemma read_package_not_training (w : string) (data : list pynum) (t : training) :
  read_package w data = Ok t -> forall b, t <> Training b.
Proof.
  unfold read_package. destruct (in_dec _ _ _); [|discriminate].
  intros H b ->.
  destruct (construct_ok _ _ _ H) as [[b' E]|[[b' [h E]]|[b' [lp [cp E]]]]];
    discriminate E.
Qed.

(** * The claims *)




(** C2 (as stated): ["RUN"] with [[15000, 1, 75]] gives distance 9.750,
    mean speed 9.750 and calories 693.000.  False: the calories are
    699.750. *)
Lemma run_scenario_claim_false :
  ~ (exists pow t, read_package "RUN" [PInt 15000; PInt 1; PInt 75] = Ok t
     /\ res_Qeq (get_distance t) 9.750
     /\ res_Qeq (get_mean_speed t) 9.750
     /\ res_Qeq (get_spent_calories pow t) 693).
Proof.
  intros [pow [t [Ht [_ [_ Hc]]]]].
  vm_compute in Ht. injection Ht as <-.
  vm_compute in Hc. destruct Hc as [_ Hc]. discriminate Hc.
Qed.

(** C2 (amended): ["RUN"] with [[15000, 1, 75]] gives distance 9.750,
    mean speed 9.750 and calories 699.750, and this printed line. *)
Theorem run_scenario pow :
  read_package "RUN" [PInt 15000; PInt 1; PInt 75]
    = Ok (Running (mkBase (PInt 15000) (PInt 1) (PInt 75)))
  /\ res_Qeq (get_distance (Running (mkBase (PInt 15000) (PInt 1) (PInt 75)))) 9.750
  /\ res_Qeq (get_mean_speed (Running (mkBase (PInt 15000) (PInt 1) (PInt 75)))) 9.750
  /\ res_Qeq (get_spent_calories pow (Running (mkBase (PInt 15000) (PInt 1) (PInt 75))))
       699.750
  /\ main pow (Running (mkBase (PInt 15000) (PInt 1) (PInt 75)))
     = Ok ("Тип тренировки: Running; Длительность: 1.000 ч.; "
           ++ "Дистанция: 9.750 км; Ср. скорость: 9.750 км/ч; "
           ++ "Потрачено ккал: 699.750.").
Proof. vm_compute. repeat split; reflexivity. Qed.

(** C3 (as stated): ["SWM"] with [[720, 1, 80, 25, 40]] gives distance
    0.468, mean speed 1.000 and calories 336.000.  False: the distance
    is [720 * 1.38 / 1000], about 0.9936. *)
Lemma swim_scenario_claim_false :
  ~ (exists pow t, read_package "SWM" [PInt 720; PInt 1; PInt 80; PInt 25; PInt 40] = Ok t
     /\ res_Qeq (get_distance t) 0.468
     /\ res_Qeq (get_mean_speed t) 1
     /\ res_Qeq (get_spent_calories pow t) 336).
Proof.
  intros [pow [t [Ht [Hd _]]]].
  vm_compute in Ht. injection Ht as <-.
  vm_compute in Hd. destruct Hd as [_ Hd]. discriminate Hd.
Qed.

(** C3 (amended): ["SWM"] with [[720, 1, 80, 25, 40]] gives distance
    [720 * 1.38 / 1000], the float [0.9935999999999999] (within
    [1e-16] below 0.9936, printed 0.994, unused for the speed), mean
    speed [25 * 40 / 1000 / 1 = 1.000] and calories
    [(1.000 + 1.1) * 2 * 80 = 336.000], and this printed line. *)
Theorem swim_scenario pow :
  read_package "SWM" [PInt 720; PInt 1; PInt 80; PInt 25; PInt 40]
    = Ok (Swimming (mkBase (PInt 720) (PInt 1) (PInt 80)) (PInt 25) (PInt 40))
  /\ get_distance (Swimming (mkBase (PInt 720) (PInt 1) (PInt 80)) (PInt 25) (PInt 40))
     = Ok (PFloat (flit 9935999999999999 10000000000000000))
  /\ ((9936 # 10000) - (1 # 10000000000000000)
      < float_to_Q (flit 9935999999999999 10000000000000000) < 9936 # 10000)%Q
  /\ res_Qeq (get_mean_speed
                (Swimming (mkBase (PInt 720) (PInt 1) (PInt 80)) (PInt 25) (PInt 40))) 1
  /\ res_Qeq (get_spent_calories pow
                (Swimming (mkBase (PInt 720) (PInt 1) (PInt 80)) (PInt 25) (PInt 40))) 336
  /\ main pow (Swimming (mkBase (PInt 720) (PInt 1) (PInt 80)) (PInt 25) (PInt 40))
     = Ok ("Тип тренировки: Swimming; Длительность: 1.000 ч.; "
           ++ "Дистанция: 0.994 км; Ср. скорость: 1.000 км/ч; "
           ++ "Потрачено ккал: 336.000.").
Proof. vm_compute. repeat split; reflexivity. Qed.




(** C5 (as stated): for every training, [get_distance] returns
    [action * stepLength / 1000].  False for an int [action] too large
    for a float: [Running(10 ** 400, 1, 75).get_distance()] raises
    [OverflowError]. *)
Lemma distance_formula_claim_false :
  ~ (forall t, exists v, get_distance t = Ok v).
Proof.
  intros H. destruct (H (Running (mkBase (PInt (10 ^ 400)) (PInt 1) (PInt 75)))) as [v Hv].
  vm_compute in Hv. discriminate Hv.
Qed.

(** C5 (amended): for every training, [get_distance] is
    [float(action) * stepLength / 1000] in float arithmetic, one
    formula for all classes, with [LEN_STEP] the float 0.65 for
    [Training], [Running] and [SportsWalking] and 1.38 for
    [Swimming]; it fails only when the int [action] does not convert to
    a float ([OverflowError]). *)
Theorem distance_formula (t : training) :
  get_distance t
  = (let* a := to_float (action (base_of t)) in
     Ok (PFloat (fdiv (fmul a (spec_step_length t)) (of_Z 1000))))
  /\ LEN_STEP t = PFloat (spec_step_length t)
  /\ (forall e, get_distance t = Err e ->
        e = OverflowError /\ exists z, action (base_of t) = PInt z).
Proof.
  assert (HL : LEN_STEP t = PFloat (spec_step_length t)) by (destruct t; reflexivity).
  assert (Hd : get_distance t
               = (let* a := to_float (action (base_of t)) in
                  Ok (PFloat (fdiv (fmul a (spec_step_length t)) (of_Z 1000))))).
  { unfold get_distance. rewrite HL, py_mul_float_r.
    destruct (to_float (action (base_of t))); cbn [bind]; [|reflexivity].
    rewrite py_truediv_M_IN_KM. reflexivity. }
  split; [exact Hd|]. split; [exact HL|].
  intros e He. rewrite Hd in He.
  destruct (to_float (action (base_of t))) eqn:E; cbn [bind] in He; [discriminate He|].
  injection He as ->. exact (to_float_err _ _ E).
Qed.




(** C7: [read_package] with a code other than ["RUN"], ["WLK"] and
    ["SWM"] raises its [ValueError] (the invalid-code error), whatever
    the data; with one of these codes and positional arguments of the
    class's arity it builds [Running], [SportsWalking] or [Swimming]. *)
Theorem read_package_dispatch (code : string) (data : list pynum) :
  ~ In code ["RUN"; "WLK"; "SWM"] ->
  read_package code data = Err (ValueError invalid_package_msg)
  /\ (forall a d w, read_package "RUN" [a; d; w] = Ok (Running (mkBase a d w)))
  /\ (forall a d w h,
        read_package "WLK" [a; d; w; h] = Ok (SportsWalking (mkBase a d w) h))
  /\ (forall a d w lp cp,
        read_package "SWM" [a; d; w; lp; cp]
        = Ok (Swimming (mkBase a d w) lp cp)).
Proof.
  intros Hc. repeat split; try reflexivity.
  unfold read_package.
  destruct (in_dec string_dec code workout_types) as [Hin|_]; [|reflexivity].
  exfalso. apply Hc. cbn in Hin |- *. tauto.
Qed.

Lemma read_package_dispatch_witness :
  ~ In "XYZ" ["RUN"; "WLK"; "SWM"]
  /\ read_package "XYZ" [PInt 1; PInt 2; PInt 3] = Err (ValueError invalid_package_msg).
Proof.
  assert (H : ~ In "XYZ" ["RUN"; "WLK"; "SWM"])
    by (simpl; intros [H|[H|[H|[]]]]; discriminate H).
  split; [exact H|].
  apply (read_package_dispatch "XYZ" [PInt 1; PInt 2; PInt 3] H).
Defined.

(** C8 (as stated): every field of a report built by
    [show_training_info] prints as a numeral with exactly three
    decimals.  False: a float overflow is silent, and
    [Swimming(720, 1, 80, 1e308, 10)] has mean speed [inf], which
    [{:.3f}] prints as [inf]. *)
Lemma report_format_claim_false :
  ~ (forall pow t info, show_training_info pow t = Ok info ->
       forall x, In x [duration info; distance info; speed info; calories info] ->
       exists s, format_field x = Ok s /\ fixed3 s).
Proof.
  intros H.
  destruct (show_training_info pow_rounded
              (Swimming (mkBase (PInt 720) (PInt 1) (PInt 80))
                 (PFloat (flit (10 ^ 308) 1)) (PInt 10))) as [info|e] eqn:E;
    [|vm_compute in E; discriminate E].
  destruct (H _ _ _ E (speed info)) as [s [Hs Hfix]]; [cbn; auto|].
  apply fixed3_has_point in Hfix.
  vm_compute in E. injection E as <-.
  vm_compute in Hs. injection Hs as <-.
  vm_compute in Hfix. discriminate Hfix.
Qed.

(** C8 (amended): every report built by [show_training_info] renders
    through [get_message] as the fixed template, with the class name
    ["Running"], ["SportsWalking"] or ["Swimming"] verbatim; each of
    the four numbers, an int duration included, is converted to a
    float and printed by [{:.3f}], which gives a numeral with exactly
    three decimals for a finite value and [inf], [-inf] or [nan]
    otherwise; the line ends with a period. *)
Theorem report_format pow (t : training) (info : InfoMessage) :
  show_training_info pow t = Ok info ->
  training_type info = class_name t
  /\ In (training_type info) ["Running"; "SportsWalking"; "Swimming"]
  /\ (exists f1 f2 f3 f4,
        get_message info
        = Ok ("Тип тренировки: " ++ training_type info
              ++ "; Длительность: " ++ format_3f f1
              ++ " ч.; Дистанция: " ++ format_3f f2
              ++ " км; Ср. скорость: " ++ format_3f f3
              ++ " км/ч; Потрачено ккал: " ++ format_3f f4
              ++ ".")
        /\ to_float (duration info) = Ok f1
        /\ distance info = PFloat f2 /\ speed info = PFloat f3
        /\ calories info = PFloat f4
        /\ printed3 f1 (format_3f f1) /\ printed3 f2 (format_3f f2)
        /\ printed3 f3 (format_3f f3) /\ printed3 f4 (format_3f f4))
  /\ (exists prefix, get_message info = Ok (prefix ++ ".")).
Proof.
  intros H.
  destruct (show_training_info_fields _ _ _ H)
    as [Hty [Hdu [[f1 H1] [[f2 H2] [[f3 H3] [[f4 H4] Hnt]]]]]].
  rewrite <- Hdu in H1.
  assert (Hm : get_message info
               = Ok ("Тип тренировки: " ++ training_type info
                     ++ "; Длительность: " ++ format_3f f1
                     ++ " ч.; Дистанция: " ++ format_3f f2
                     ++ " км; Ср. скорость: " ++ format_3f f3
                     ++ " км/ч; Потрачено ккал: " ++ format_3f f4
                     ++ ".")).
  { unfold get_message, format_field. rewrite H1, H2, H3, H4. reflexivity. }
  split; [exact Hty|]. split.
  { rewrite Hty. destruct t as [b|b|b h|b lp cp];
      [exfalso; exact (Hnt b eq_refl) | cbn; auto ..]. }
  split.
  - exists f1, f2, f3, f4. split; [exact Hm|].
    repeat (split; [assumption|]).
    repeat split; apply format_3f_printed3.
  - exists ("Тип тренировки: " ++ training_type info
            ++ "; Длительность: " ++ format_3f f1
            ++ " ч.; Дистанция: " ++ format_3f f2
            ++ " км; Ср. скорость: " ++ format_3f f3
            ++ " км/ч; Потрачено ккал: " ++ format_3f f4).
    rewrite Hm. rewrite !string_append_assoc. reflexivity.
Qed.

Lemma report_format_witness :
  match show_training_info pow_rounded
          (Swimming (mkBase (PInt 720) (PInt 1) (PInt 80)) (PInt 25) (PInt 40)) with
  | Ok info =>
      training_type info = "Swimming"
      /\ exists prefix, get_message info = Ok (prefix ++ ".")
  | Err _ => False
  end.
Proof.
  destruct (show_training_info pow_rounded
              (Swimming (mkBase (PInt 720) (PInt 1) (PInt 80)) (PInt 25) (PInt 40)))
    as [info|e] eqn:E; [|vm_compute in E; discriminate E].
  destruct (report_format _ _ _ E) as [Hty [_ [_ Hp]]].
  split; [exact Hty | exact Hp].
Defined.

(** C9: [read_package] with a known code and a positional argument list
    whose length is not the arity of the class (3 for ["RUN"], 4 for
    ["WLK"], 5 for ["SWM"]) fails with the argument-count error of the
    constructor call, Python's [TypeError], distinct from the
    invalid-code [ValueError]. *)
Theorem read_package_arity (code : string) (data : list pynum) :
  (code = "RUN" /\ List.length data <> 3%nat
   \/ code = "WLK" /\ List.length data <> 4%nat
   \/ code = "SWM" /\ List.length data <> 5%nat) ->
  read_package code data = Err TypeError
  /\ read_package code data <> Err (ValueError invalid_package_msg).
Proof.
  intros Hc.
  assert (H : read_package code data = Err TypeError).
  { destruct Hc as [[-> Hl] | [[-> Hl] | [-> Hl]]]; unfold read_package;
      (destruct (in_dec string_dec _ workout_types) as [_|Hn];
       [| exfalso; apply Hn; cbn; tauto]);
      destruct data as [|a [|d [|w [|x [|y [|z l]]]]]]; cbn [List.length] in Hl;
      solve [reflexivity | exfalso; apply Hl; reflexivity]. }
  split; [exact H|]. rewrite H. discriminate.
Qed.

Lemma read_package_arity_witness :
  ("RUN" = "RUN" /\ List.length [PInt 15000; PInt 1] <> 3%nat
   \/ "RUN" = "WLK" /\ List.length [PInt 15000; PInt 1] <> 4%nat
   \/ "RUN" = "SWM" /\ List.length [PInt 15000; PInt 1] <> 5%nat)
  /\ read_package "RUN" [PInt 15000; PInt 1] = Err TypeError.
Proof.
  assert (H : "RUN" = "RUN" /\ List.length [PInt 15000; PInt 1] <> 3%nat
   \/ "RUN" = "WLK" /\ List.length [PInt 15000; PInt 1] <> 4%nat
   \/ "RUN" = "SWM" /\ List.length [PInt 15000; PInt 1] <> 5%nat)
    by (left; split; [reflexivity | simpl; lia]).
  split; [exact H|].
  apply (read_package_arity "RUN" [PInt 15000; PInt 1] H).
Defined.

(** C10: a [Running] and a [SportsWalking] with the same [action] and
    duration (any weights, any height) have the same [get_distance]
    and the same [get_mean_speed], results and exceptions alike; when
    both reports are built they agree on duration, distance and speed,
    so they differ only in the class name and the calories. *)
Theorem running_walking_same_distance_speed pow (a d w1 w2 h : pynum) :
  get_distance (Running (mkBase a d w1)) = get_distance (SportsWalking (mkBase a d w2) h)
  /\ get_mean_speed (Running (mkBase a d w1))
     = get_mean_speed (SportsWalking (mkBase a d w2) h)
  /\ (forall i1 i2,
        show_training_info pow (Running (mkBase a d w1)) = Ok i1 ->
        show_training_info pow (SportsWalking (mkBase a d w2) h) = Ok i2 ->
        duration i1 = duration i2 /\ distance i1 = distance i2 /\ speed i1 = speed i2).
Proof.
  assert (Hdist : get_distance (Running (mkBase a d w1))
                  = get_distance (SportsWalking (mkBase a d w2) h)) by reflexivity.
  assert (Hspeed : get_mean_speed (Running (mkBase a d w1))
                   = get_mean_speed (SportsWalking (mkBase a d w2) h)) by reflexivity.
  split; [exact Hdist|]. split; [exact Hspeed|].
  intros i1 i2 H1 H2. unfold show_training_info in H1, H2.
  rewrite <- Hdist, <- Hspeed in H2.
  destruct (get_distance (Running (mkBase a d w1))); cbn [bind] in H1, H2;
    [|discriminate H1].
  destruct (get_mean_speed (Running (mkBase a d w1))); cbn [bind] in H1, H2;
    [|discriminate H1].
  destruct (get_spent_calories pow (Running (mkBase a d w1))); cbn [bind] in H1;
    [|discriminate H1].
  destruct (get_spent_calories pow (SportsWalking (mkBase a d w2) h)); cbn [bind] in H2;
    [|discriminate H2].
  injection H1 as <-. injection H2 as <-. cbn. auto.
Qed.

(** * Further properties of the program *)

(** [main] on a plain [Training] never prints: it raises the exception
    of [get_mean_speed] if there is one (computing the distance and the
    speed comes first), and otherwise the [NotImplementedError] of
    [get_spent_calories]. *)
Theorem plain_training_main pow (b : base) :
  main pow (Training b)
  = match get_mean_speed (Training b) with
    | Ok _ => Err (NotImplementedError
                     "Для тренировки не определен метод подсчета калорий.")
    | Err e => Err e
    end.
Proof.
  unfold main, show_training_info. cbn [get_mean_speed].
  destruct (get_distance (Training b)); cbn [bind]; [|reflexivity].
  destruct (py_truediv _ _); reflexivity.
Qed.

(** A zero duration ([0], [0.0] or [-0.0]) makes [get_mean_speed]
    raise, and [show_training_info] and [main] raise too, an arithmetic
    exception; once the dividend of the last division is computed, the
    exception is [ZeroDivisionError]. *)
Theorem zero_duration_raises pow (t : training) :
  is_zero_num (duration_hour (base_of t)) = true ->
  (exists e, get_mean_speed t = Err e /\ arith_exn e)
  /\ (exists e, show_training_info pow t = Err e /\ main pow t = Err e /\ arith_exn e)
  /\ (forall v, match t with
                | Swimming _ lp cp => let* x := py_mul lp cp in py_truediv x M_IN_KM
                | _ => get_distance t
                end = Ok v ->
        get_mean_speed t = Err ZeroDivisionError).
Proof.
  intros Hz.
  assert (Hnum : forall v, match t with
                | Swimming _ lp cp => let* x := py_mul lp cp in py_truediv x M_IN_KM
                | _ => get_distance t
                end = Ok v -> get_mean_speed t = Err ZeroDivisionError).
  { intros v Hv. destruct t as [b|b|b h|b lp cp]; cbn [get_mean_speed base_of] in *.
    1-3: rewrite Hv; cbn [bind]; destruct (get_distance_float _ _ Hv) as [f ->];
         apply py_truediv_zero; exact Hz.
    destruct (py_mul lp cp); cbn [bind] in Hv |- *; [|discriminate Hv].
    rewrite Hv. cbn [bind]. destruct (py_truediv_float _ _ _ Hv) as [f ->].
    apply py_truediv_zero; exact Hz. }
  assert (Hsp : exists e, get_mean_speed t = Err e /\ arith_exn e).
  { destruct (get_mean_speed t) as [v|e] eqn:Es.
    - exfalso.
      assert (Hn : exists w, match t with
                | Swimming _ lp cp => let* x := py_mul lp cp in py_truediv x M_IN_KM
                | _ => get_distance t
                end = Ok w).
      { clear Hnum. destruct t; cbn [get_mean_speed] in Es |- *;
          repeat match type of Es with
          | bind ?m _ = Ok _ =>
              destruct m eqn:?; cbn [bind] in Es |- *; [|discriminate Es]
          end; eauto. }
      destruct Hn as [w Hw]. pose proof (Hnum w Hw) as C. congruence.
    - exists e. split; [reflexivity | exact (arith_get_mean_speed t e Es)]. }
  split; [exact Hsp|]. split; [|exact Hnum].
  unfold main, show_training_info.
  destruct (get_distance t) as [d|e] eqn:Ed; cbn [bind].
  - destruct Hsp as [e [Hs He]]. rewrite Hs. cbn [bind]. eauto.
  - exists e. split; [reflexivity|]. split; [reflexivity|].
    exact (arith_get_distance t e Ed).
Qed.

Lemma zero_duration_raises_witness :
  is_zero_num (duration_hour (base_of (Running (mkBase (PInt 15000) (PInt 0) (PInt 75)))))
    = true
  /\ get_mean_speed (Running (mkBase (PInt 15000) (PInt 0) (PInt 75)))
     = Err ZeroDivisionError.
Proof.
  assert (H : is_zero_num (duration_hour (base_of
                (Running (mkBase (PInt 15000) (PInt 0) (PInt 75))))) = true)
    by reflexivity.
  split; [exact H|].
  apply (proj2 (proj2 (zero_duration_raises pow_rounded _ H)) (PFloat (flit 975 100))).
  vm_compute. reflexivity.
Defined.

(** A [SportsWalking] with a zero height ([0], [0.0] or [-0.0]), whose
    weight converts to a float and whose mean speed and its square are
    computed, raises [ZeroDivisionError] in the floor division of
    [get_spent_calories]; [main] raises it too. *)
Theorem walking_zero_height_raises pow (b : base) (h s p : pynum) (w : float) :
  is_zero_num h = true ->
  to_float (weight b) = Ok w ->
  get_mean_speed (SportsWalking b h) = Ok s ->
  py_pow2 pow s = Ok p ->
  get_spent_calories pow (SportsWalking b h) = Err ZeroDivisionError
  /\ main pow (SportsWalking b h) = Err ZeroDivisionError.
Proof.
  intros Hz Hw Hs Hp.
  assert (Hd : exists d, get_distance (SportsWalking b h) = Ok d).
  { pose proof Hs as Hs'. cbn [get_mean_speed] in Hs'.
    destruct (get_distance (SportsWalking b h)); [eauto | discriminate Hs']. }
  destruct Hd as [d Hd].
  assert (Hc : get_spent_calories pow (SportsWalking b h) = Err ZeroDivisionError).
  { destruct (get_mean_speed_float _ _ Hs) as [f ->].
    destruct (py_pow2_float _ _ _ Hp) as [g ->].
    cbn [get_spent_calories]. unfold SportsWalking_COEFF_CALORIE_1.
    rewrite py_mul_float_l, Hw. cbn [bind]. rewrite Hs. cbn [bind].
    rewrite Hp. cbn [bind]. rewrite py_floordiv_zero by exact Hz. reflexivity. }
  split; [exact Hc|].
  unfold main, show_training_info. rewrite Hd, Hs, Hc. reflexivity.
Qed.

Lemma walking_zero_height_raises_witness :
  get_spent_calories pow_rounded
    (SportsWalking (mkBase (PInt 9000) (PInt 1) (PInt 75)) (PInt 0))
  = Err ZeroDivisionError.
Proof.
  apply (walking_zero_height_raises pow_rounded (mkBase (PInt 9000) (PInt 1) (PInt 75))
           (PInt 0) (PFloat (flit 585 100)) (PFloat (pow_rounded (flit 585 100) ftwo))
           (of_Z 75)); vm_compute; reflexivity.
Defined.

(** For a [Swimming] whose mean speed is the float [s] and whose weight
    converts to the float [w], [get_spent_calories] is
    [(s + 1.1) * 2 * w] in float arithmetic; it does not depend on
    [action]. *)
Theorem swimming_calories pow (b : base) (lp cp : pynum) (s w : float) :
  get_mean_speed (Swimming b lp cp) = Ok (PFloat s) ->
  to_float (weight b) = Ok w ->
  get_spent_calories pow (Swimming b lp cp)
  = Ok (PFloat (fmul (fmul (fadd s (flit 11 10)) (of_Z 2)) w))
  /\ (forall action',
        get_spent_calories pow (Swimming (mkBase action' (duration_hour b) (weight b)) lp cp)
        = get_spent_calories pow (Swimming b lp cp)).
Proof.
  intros Hs Hw. split; [|reflexivity].
  cbn [get_spent_calories].
  unfold Swimming_COEFF_CALORIE_1, Swimming_COEFF_CALORIE_2.
  py_simpl. reflexivity.
Qed.

Lemma swimming_calories_witness :
  get_spent_calories pow_rounded
    (Swimming (mkBase (PInt 720) (PInt 1) (PInt 80)) (PInt 25) (PInt 40))
  = Ok (PFloat (fmul (fmul (fadd (of_Z 1) (flit 11 10)) (of_Z 2)) (of_Z 80))).
Proof.
  apply (swimming_calories pow_rounded (mkBase (PInt 720) (PInt 1) (PInt 80))
           (PInt 25) (PInt 40) (of_Z 1) (of_Z 80)); vm_compute; reflexivity.
Defined.

(** The [__main__] block prints these three lines and ends without an
    exception, for any [pow] that rounds [5.85 ** 2] correctly (the only
    power the three packages compute). *)
Theorem packages_output pow :
  pow (flit 585 100) ftwo = pow_rounded (flit 585 100) ftwo ->
  run_packages pow packages
  = (["Тип тренировки: Swimming; Длительность: 1.000 ч.; Дистанция: 0.994 км; Ср. скорость: 1.000 км/ч; Потрачено ккал: 336.000.";
      "Тип тренировки: Running; Длительность: 1.000 ч.; Дистанция: 9.750 км; Ср. скорость: 9.750 км/ч; Потрачено ккал: 699.750.";
      "Тип тренировки: SportsWalking; Длительность: 1.000 ч.; Дистанция: 5.850 км; Ср. скорость: 5.850 км/ч; Потрачено ккал: 157.500."],
     None).
Proof.
  intros Hp.
  set (TS := Swimming (mkBase (PInt 720) (PInt 1) (PInt 80)) (PInt 25) (PInt 40)).
  set (TR := Running (mkBase (PInt 15000) (PInt 1) (PInt 75))).
  set (TW := SportsWalking (mkBase (PInt 9000) (PInt 1) (PInt 75)) (PInt 180)).
  assert (Hs : get_mean_speed TW = Ok (PFloat (flit 585 100))) by (vm_compute; reflexivity).
  assert (Hpw : py_pow2 pow (PFloat (flit 585 100))
                = py_pow2 pow_rounded (PFloat (flit 585 100))).
  { rewrite !py_pow2_of_finite by reflexivity. rewrite Hp. reflexivity. }
  assert (Hc : get_spent_calories pow TW = get_spent_calories pow_rounded TW).
  { unfold TW. cbn [get_spent_calories]. fold TW. rewrite Hs. cbn [bind].
    rewrite Hpw. reflexivity. }
  assert (R1 : run_package pow (fst (nth 0 packages ("", [])), snd (nth 0 packages ("", [])))
               = run_package pow_rounded (nth 0 packages ("", []))).
  { unfold run_package. cbn [fst snd nth packages].
    change (read_package "SWM" [PInt 720; PInt 1; PInt 80; PInt 25; PInt 40]) with (Ok TS).
    reflexivity. }
  assert (R2 : run_package pow (fst (nth 1 packages ("", [])), snd (nth 1 packages ("", [])))
               = run_package pow_rounded (nth 1 packages ("", []))).
  { unfold run_package. cbn [fst snd nth packages].
    change (read_package "RUN" [PInt 15000; PInt 1; PInt 75]) with (Ok TR).
    reflexivity. }
  assert (R3 : run_package pow (fst (nth 2 packages ("", [])), snd (nth 2 packages ("", [])))
               = run_package pow_rounded (nth 2 packages ("", []))).
  { unfold run_package. cbn [fst snd nth packages].
    change (read_package "WLK" [PInt 9000; PInt 1; PInt 75; PInt 180]) with (Ok TW).
    cbn [bind]. unfold main, show_training_info. rewrite Hc. reflexivity. }
  cbn [nth packages fst snd] in R1, R2, R3.
  assert (E : run_packages pow packages = run_packages pow_rounded packages).
  { unfold packages. cbn [run_packages]. rewrite R1, R2, R3. reflexivity. }
  rewrite E. vm_compute. reflexivity.
Qed.

Lemma packages_output_witness :
  run_packages pow_rounded packages
  = (["Тип тренировки: Swimming; Длительность: 1.000 ч.; Дистанция: 0.994 км; Ср. скорость: 1.000 км/ч; Потрачено ккал: 336.000.";
      "Тип тренировки: Running; Длительность: 1.000 ч.; Дистанция: 9.750 км; Ср. скорость: 9.750 км/ч; Потрачено ккал: 699.750.";
      "Тип тренировки: SportsWalking; Длительность: 1.000 ч.; Дистанция: 5.850 км; Ср. скорость: 5.850 км/ч; Потрачено ккал: 157.500."],
     None).
Proof. apply packages_output. reflexivity. Defined.

(** A training built by [read_package] is never a plain [Training], so
    [main] on it can only raise the arithmetic exceptions
    [ZeroDivisionError] and [OverflowError], never
    [NotImplementedError]. *)
Theorem read_package_main pow (code : string) (data : list pynum) (t : training) (e : exn) :
  read_package code data = Ok t -> main pow t = Err e -> arith_exn e.
Proof.
  intros Hr He. pose proof (read_package_not_training _ _ _ Hr) as Hnt.
  assert (H : arith_res (main pow t)).
  { unfold main, show_training_info.
    apply arith_bind; [|intros ?; apply arith_get_message].
    apply arith_bind; [apply arith_get_distance | intros ?].
    apply arith_bind; [apply arith_get_mean_speed | intros ?].
    apply arith_bind; [apply arith_get_spent_calories; exact Hnt | intros ?].
    apply arith_ok. }
  exact (H e He).
Qed.

Lemma read_package_main_witness : arith_exn ZeroDivisionError.
Proof.
  apply (read_package_main pow_rounded "RUN" [PInt 15000; PInt 0; PInt 75]
           (Running (mkBase (PInt 15000) (PInt 0) (PInt 75))));
    vm_compute; reflexivity.
Defined.

(** The [__main__] loop ends without an exception exactly when every
    package runs; it then prints one line per package, in order. *)
Theorem run_packages_complete pow (ps : list (string * list pynum)) (out : list string) :
  run_packages pow ps = (out, None)
  <-> Forall2 (fun p line => run_package pow p = Ok line) ps out.
Proof.
  revert out. induction ps as [|p ps IH]; intros out; cbn [run_packages].
  - split; [intros H; injection H as <-; constructor
           | intros H; inversion H; reflexivity].
  - destruct (run_package pow p) as [line|e] eqn:Hp.
    + destruct (run_packages pow ps) as [out' e'] eqn:Hps. split.
      * intros H. injection H as <- ->. constructor; [exact Hp|].
        apply IH. reflexivity.
      * intros H. inversion H as [|p' line' ps' out'' Hl Hrest]; subst.
        rewrite Hp in Hl. injection Hl as <-.
        apply IH in Hrest. injection Hrest as -> ->.
        reflexivity.
    + split; [discriminate|].
      intros H. inversion H as [|p' line' ps' out'' Hl Hrest]; subst.
      rewrite Hp in Hl. discriminate Hl.
Qed.

Lemma run_packages_complete_witness :
  run_packages pow_rounded packages
    = (map (fun p => match run_package pow_rounded p with
                     | Ok l => l | Err _ => "" end) packages, None)
  /\ Forall2 (fun p line => run_package pow_rounded p = Ok line) packages
       (map (fun p => match run_package pow_rounded p with
                      | Ok l => l | Err _ => "" end) packages).
Proof.
  assert (H : run_packages pow_rounded packages
              = (map (fun p => match run_package pow_rounded p with
                               | Ok l => l | Err _ => "" end) packages, None))
    by (vm_compute; reflexivity).
  split; [exact H|]. apply run_packages_complete. exact H.
Defined.

(** When a package raises, the loop stops there: the lines of the
    packages before it are printed, none after it, and the exception
    escapes. *)
Theorem run_packages_abort pow (ps1 ps2 : list (string * list pynum))
    (p : string * list pynum) (lines : list string) (e : exn) :
  Forall2 (fun p line => run_package pow p = Ok line) ps1 lines ->
  run_package pow p = Err e ->
  run_packages pow (ps1 ++ p :: ps2) = (lines, Some e).
Proof.
  intros H Hp. induction H as [|p1 l1 ps1 lines1 Hp1 _ IH]; cbn [app run_packages].
  - rewrite Hp. reflexivity.
  - rewrite Hp1, IH. reflexivity.
Qed.

Lemma run_packages_abort_witness :
  Forall2 (fun p line => run_package pow_rounded p = Ok line)
    [("RUN", [PInt 15000; PInt 1; PInt 75])]
    ["Тип тренировки: Running; Длительность: 1.000 ч.; Дистанция: 9.750 км; Ср. скорость: 9.750 км/ч; Потрачено ккал: 699.750."]
  /\ run_package pow_rounded ("XYZ", [PInt 1; PInt 2; PInt 3])
     = Err (ValueError invalid_package_msg)
  /\ run_packages pow_rounded
       ([("RUN", [PInt 15000; PInt 1; PInt 75])] ++ ("XYZ", [PInt 1; PInt 2; PInt 3]) :: packages)
     = (["Тип тренировки: Running; Длительность: 1.000 ч.; Дистанция: 9.750 км; Ср. скорость: 9.750 км/ч; Потрачено ккал: 699.750."],
        Some (ValueError invalid_package_msg)).
Proof.
  assert (H1 : Forall2 (fun p line => run_package pow_rounded p = Ok line)
    [("RUN", [PInt 15000; PInt 1; PInt 75])]
    ["Тип тренировки: Running; Длительность: 1.000 ч.; Дистанция: 9.750 км; Ср. скорость: 9.750 км/ч; Потрачено ккал: 699.750."])
    by (constructor; [vm_compute; reflexivity | constructor]).
  assert (H2 : run_package pow_rounded ("XYZ", [PInt 1; PInt 2; PInt 3])
               = Err (ValueError invalid_package_msg))
    by reflexivity.
  split; [exact H1|]. split; [exact H2|].
  apply (run_packages_abort _ _ _ _ _ _ H1 H2).
Defined.

(** [{:.3f}] on a finite float prints a sign that is ["-"] exactly when
    the sign bit is set ([-0.0] prints [-0.000]), at least one integer
    digit, a point and exactly three fractional digits; the printed
    number is within 0.0005 of the float's exact value. *)
Theorem format_3f_value (f : float) :
  is_finite f = true ->
  exists sign ip fp,
    format_3f f = sign ++ ip ++ "." ++ fp
    /\ sign = sign_str (sign_bit f)
    /\ ip <> "" /\ all_digits ip = true
    /\ String.length fp = 3%nat /\ all_digits fp = true
    /\ (- (1 # 2000) <= float_to_Q f - printed_value sign ip fp <= 1 # 2000)%Q.
Proof.
  intros Hf.
  assert (Hq : exists q, (0 <= q)%Q
               /\ format_3f f = sign_str (sign_bit f) ++ fixed_3 q
               /\ float_to_Q f = if sign_bit f then Qopp q else q).
  { destruct f as [s|s| |s m e]; try discriminate Hf.
    - exists 0%Q. split; [apply Qle_refl|]. split; [reflexivity|].
      destruct s; reflexivity.
    - exists (float_to_Q (S754_finite false m e)).
      split; [apply float_to_Q_nonneg|]. split; [reflexivity|].
      apply float_to_Q_finite_sign. }
  destruct Hq as [q [Hq0 [Hfmt Hval]]].
  destruct (fixed_3_value q Hq0) as [ip [fp [E [Hne [Hip [Hl [Hfp Hb]]]]]]].
  exists (sign_str (sign_bit f)), ip, fp.
  rewrite Hfmt, E. repeat (split; [reflexivity || assumption|]).
  rewrite Hval. unfold printed_value.
  destruct (sign_bit f); cbn [sign_str].
  - destruct (string_dec "-" "-") as [_|C]; [|congruence]. split; lra.
  - destruct (string_dec "" "-") as [C|_]; [discriminate C|]. exact Hb.
Qed.

Lemma format_3f_value_witness :
  exists sign ip fp,
    format_3f (flit 9935999999999999 10000000000000000) = sign ++ ip ++ "." ++ fp
    /\ sign = "".
Proof.
  destruct (format_3f_value (flit 9935999999999999 10000000000000000) eq_refl)
    as [sign [ip [fp [E [Hs _]]]]].
  exists sign, ip, fp. split; [exact E | exact Hs].
Defined.
